(** * Instant-seal and manual-seal consensus engines

    A shallow embedding of
    - [client/consensus/instant-seal/src/lib.rs]: the block-import shim
      [InstantSealBlockImport], the verifier [InstantSealVerifier] and the
      authorship task [run_instant_seal];
    - [client/consensus/manual-seal/src/rpc.rs]: [EngineCommand] and the
      RPC handler [ManualSeal::create_block].

    Generic Rust type parameters ([B::Header], [B::Extrinsic], the proposer,
    the error types, ...) are section variables.  External collaborators
    (chain selection, proposer environment, inherent data providers, the
    transaction pool) are given, per pool notification, by a record of their
    answers.  Side effects of one authorship cycle are recorded as a list of
    events in a small state-and-writer monad. *)

From stdpp Require Import base list gmap strings.

(** ** Rust prelude *)

(** [Result<T, E>]. *)
Inductive result (T E : Type) : Type :=
| Ok (v : T)
| Err (e : E).
Arguments Ok {T E} v.
Arguments Err {T E} e.

(** [std::time::Duration]: whole seconds and nanoseconds. *)
Record Duration := mkDuration { secs : nat; nanos : nat }.

(** [Duration::from_secs]. *)
Definition Duration_from_secs (s : nat) : Duration :=
  {| secs := s; nanos := 0 |}.

(** [CacheKeyId = [u8; 4]], bytes as [Z]. *)
Abbreviation CacheKeyId := (Z * Z * Z * Z)%type.

(** [HashMap<CacheKeyId, Vec<u8>>]. *)
Abbreviation HashMap := (gmap CacheKeyId (list Z)).

(** [HashMap::new()]. *)
Definition HashMap_new : HashMap := ∅.

(** ** consensus_common types *)

(** [BlockOrigin]. *)
Inductive BlockOrigin :=
| Genesis
| NetworkInitialSync
| NetworkBroadcast
| ConsensusBroadcast
| Own
| File.

(** [ForkChoiceStrategy]. *)
Inductive ForkChoiceStrategy :=
| LongestChain
| Custom (b : bool).

Section Blocks.
Context {Header Extrinsic Justification DigestItem : Type}.

  (** [BlockImportParams<B>]. *)
Record BlockImportParams := mkBlockImportParams {
    origin : BlockOrigin;
    header : Header;
    justification : option Justification;
    post_digests : list DigestItem;
    body : option (list Extrinsic);
    finalized : bool;
    auxiliary : list (list Z * option (list Z));
    fork_choice : ForkChoiceStrategy;
    allow_missing_state : bool
  }.
End Blocks.
Arguments BlockImportParams : clear implicits.

(** ** The [BlockImport] trait

    [&mut self] methods return the updated receiver together with the
    result. *)
Class BlockImport (Header Extrinsic Justification DigestItem
                   BlockCheckParams ImportResult : Type) (I : Type) := {
  Error : Type;
  check_block : I -> BlockCheckParams -> I * result ImportResult Error;
  import_block : I -> BlockImportParams Header Extrinsic Justification DigestItem
                 -> HashMap -> I * result ImportResult Error
}.
Arguments Error {_ _ _ _ _ _} I {_}.

(** [pub struct InstantSealBlockImport<I> { inner: I }]. *)
Record InstantSealBlockImport (I : Type) := mkInstantSealBlockImport {
  inner : I
}.
Arguments mkInstantSealBlockImport {I} inner.
Arguments inner {I} _.

(** [impl<I> From<I> for InstantSealBlockImport<I>]. *)
Definition InstantSealBlockImport_from {I : Type} (i : I) : InstantSealBlockImport I :=
  mkInstantSealBlockImport i.

(** [impl BlockImport<B> for InstantSealBlockImport<I>]. *)
#[global] Instance InstantSealBlockImport_BlockImport
  {Header Extrinsic Justification DigestItem BlockCheckParams ImportResult I : Type}
  `{BI : BlockImport Header Extrinsic Justification DigestItem BlockCheckParams ImportResult I}
  : BlockImport Header Extrinsic Justification DigestItem BlockCheckParams ImportResult
                (InstantSealBlockImport I) := {
  Error := Error I;
  check_block self block :=
    let '(i', r) := check_block (inner self) block in
    (mkInstantSealBlockImport i', r);
  import_block self block cache :=
    (* TODO: strip out post-digest. *)
    let '(i', r) := import_block (inner self) block cache in
    (mkInstantSealBlockImport i', r)
}.

(** ** [InstantSealVerifier] *)

(** [BlockOrigin], header, justification, body in; import parameters and
    optional cache entries out, or a [String] error. *)
Definition InstantSealVerifier_verify
  {Header Extrinsic Justification DigestItem : Type}
  (origin : BlockOrigin) (header : Header)
  (justification : option Justification) (body : option (list Extrinsic))
  : result (BlockImportParams Header Extrinsic Justification DigestItem
            * option (list (CacheKeyId * list Z))) string :=
  let import_params := {|
    origin := origin;
    header := header;
    justification := justification;
    post_digests := [];
    body := body;
    finalized := true;
    auxiliary := [];
    fork_choice := LongestChain;
    allow_missing_state := false
  |} in
  Ok (import_params, None).

(** ** manual-seal RPC: [EngineCommand] *)

(** The messages the engine receives over its channel. *)
Inductive EngineCommand :=
| SealNewBlock (force : bool)
| CreateFork.

(** ** [run_instant_seal] *)

Section InstantSeal.
Context {Header Extrinsic Justification DigestItem BlockCheckParams ImportResult : Type}.
Context {Block Proposer InherentData : Type}.
Context {ChainError EnvError InherentError ProposeError : Type}.
  (** [Block::deconstruct]. *)
Context (deconstruct : Block -> Header * list Extrinsic).
Context {I : Type}
    `{BI : BlockImport Header Extrinsic Justification DigestItem BlockCheckParams ImportResult I}.

Local Abbreviation Params := (BlockImportParams Header Extrinsic Justification DigestItem).

  (** What the collaborators answer while one pool notification is
      processed: [pool.status().ready], [select_chain.best_chain()],
      [env.init], [inherent_data_providers.create_inherent_data()] and
      [proposer.propose(inherent_data, inherent_digests, max_duration)]. *)
Record World := mkWorld {
    pool_ready : nat;
    best_chain : result Header ChainError;
    env_init : Header -> result Proposer EnvError;
    create_inherent_data : result InherentData InherentError;
    propose : Proposer -> InherentData -> list DigestItem -> Duration -> result Block ProposeError
  }.

  (** Observable effects of the engine. *)
Inductive Event :=
  | EvPoolStatus
  | EvBestChain
  | EvInit (best : Header)
  | EvCreateInherentData
  | EvPropose (proposer : Proposer) (id : InherentData) (max_duration : Duration)
  | EvImport (params : Params) (cache : HashMap)
  | EvWarn (msg : string).

  (** The engine's monad: the block-import handle is the state, the events
      are written out. *)
Definition M (A : Type) : Type := I -> list Event * I * A.

#[local] Instance M_ret : MRet M := fun A x s => ([], s, x).
#[local] Instance M_bind : MBind M := fun A B k m s =>
    let '(e1, s1, a) := m s in
    let '(e2, s2, b) := k a s1 in
    (e1 ++ e2, s2, b).

Definition tell (e : Event) : M unit := fun s => ([e], s, tt).

  (** [block_import.lock().import_block(params, cache)]. *)
Definition import_call (params : Params) (cache : HashMap)
    : M (result ImportResult (Error I)) :=
    fun s => let '(s', r) := import_block s params cache in
             ([EvImport params cache], s', r).

  (** Lines 139-185 of [run_instant_seal]: from the chain-selection query
      to the import of the proposed block. *)
Definition seal_block (w : World) : M unit :=
    tell EvBestChain ;;
    match best_chain w with
    | Err _ => mret ()
    | Ok best_block_header =>
      tell (EvInit best_block_header) ;;
      match env_init w best_block_header with
      | Err _ => mret ()
      | Ok proposer =>
        tell EvCreateInherentData ;;
        match create_inherent_data w with
        | Err _ => mret ()
        | Ok id =>
          tell (EvPropose proposer id (Duration_from_secs 5)) ;;
          match propose w proposer id [] (Duration_from_secs 5) with
          | Ok block =>
            let '(header, body) := deconstruct block in
            let import_params : Params := {|
              origin := Own;
              header := header;
              justification := None;
              post_digests := [];
              body := Some body;
              finalized := true;
              auxiliary := [];
              fork_choice := LongestChain;
              allow_missing_state := false
            |} in
            res ← import_call import_params HashMap_new ;
            match res with
            | Err _ => tell (EvWarn "Failed to import just-constructed block")
            | Ok _ => mret ()
            end
          | Err _ => tell (EvWarn "Failed to propose block")
          end
        end
      end
    end.

  (** The future run for one pool import notification. *)
Definition instant_seal_cycle (w : World) : M unit :=
    tell EvPoolStatus ;;
    if decide (pool_ready w = 0) then mret () else seal_block w.

  (** [pool.import_notification_stream().for_each(...)]: [for_each] awaits
      each future before taking the next notification. *)
Fixpoint instant_seal_loop (notifications : list World) : M unit :=
    match notifications with
    | [] => mret ()
    | w :: ws => instant_seal_cycle w ;; instant_seal_loop ws
    end.

  (** [run_instant_seal]: the task moves the block-import handle in and
      resolves to [()]. *)
Definition run_instant_seal (block_import : I) (notifications : list World)
    : list Event * unit :=
    let '(evs, _, r) := instant_seal_loop notifications block_import in (evs, r).

  (** Modelled from the spec: the ProposalPipeline with a [force] flag
      (section 4.1, step 1: abort when [force == false] and no transaction
      is ready; steps 2-7 are [seal_block]).  The consumer of the manual
      command channel is not among the sources. *)
Definition attempt_production (force : bool) (w : World) : M unit :=
    if force then seal_block w else instant_seal_cycle w.

  (** Modelled from the spec: the ManualTrigger (section 4.3) handling one
      command, [SealNewBlock{force}] runs the pipeline with that [force],
      [CreateFork] performs no action. *)
Definition manual_seal_step (cmd : EngineCommand) (w : World) : M unit :=
    match cmd with
    | SealNewBlock force => attempt_production force w
    | CreateFork => mret ()
    end.

End InstantSeal.

(** ** Serialisation of imports: the [Mutex] around the block-import handle

    [run_instant_seal] wraps the handle in [Arc<Mutex<_>>] and every cycle
    imports through [block_import.clone().lock().import_block(..)]: the guard
    is a temporary, taken before [import_block] is called and dropped at the
    end of that statement, and [import_block] itself is synchronous.  The
    model lets any number of cycles run side by side (more than the
    sequential [for_each] of the source allows): each cycle is a thread
    whose phase moves through the stages of the pipeline. *)
Module ImportLock.

Inductive Phase :=
  | Proposing   (* lines 133-158: readiness check, best chain, init, inherents, propose *)
  | Locking     (* [block_import.clone().lock()] waiting for the mutex *)
  | Importing   (* inside [.import_block(import_params, HashMap::new())] *)
  | Done.

Record Sched := mkSched {
    lock_holder : option nat;
    phases : list Phase
  }.

Definition sched_init : Sched := mkSched None [].

Inductive step : Sched -> Sched -> Prop :=
  (* a trigger fires and a new cycle starts *)
  | step_spawn l ps :
      step (mkSched l ps) (mkSched l (ps ++ [Proposing]))
  (* a stage before import fails, or the proposal fails: [return] *)
  | step_abort l ps i :
      ps !! i = Some Proposing ->
      step (mkSched l ps) (mkSched l (<[i:=Done]> ps))
  (* the proposal succeeded; the cycle asks for the lock *)
  | step_proposed l ps i :
      ps !! i = Some Proposing ->
      step (mkSched l ps) (mkSched l (<[i:=Locking]> ps))
  (* [Mutex::lock] returns once the mutex is free *)
  | step_lock ps i :
      ps !! i = Some Locking ->
      step (mkSched None ps) (mkSched (Some i) (<[i:=Importing]> ps))
  (* [import_block] returns and the guard is dropped *)
  | step_unlock l ps i :
      ps !! i = Some Importing ->
      step (mkSched l ps) (mkSched None (<[i:=Done]> ps)).

Definition reachable (s : Sched) : Prop := rtc step sched_init s.

  (** The lock is held exactly by the cycle that is importing. *)
Definition lock_inv (s : Sched) : Prop :=
    forall i, phases s !! i = Some Importing <-> lock_holder s = Some i.

End ImportLock.

(** ** manual-seal RPC: [ManualSeal::create_block] *)
Module ManualSealRpc.

  (** The state of the [futures::channel::mpsc] unbounded channel seen by
      an [UnboundedSender]: whether the receiver is gone, and the queued
      messages. *)
Record UnboundedSender := mkUnboundedSender {
    closed : bool;
    queue : list EngineCommand
  }.

  (** [TrySendError<T>] gives the message back. *)
Record TrySendError := mkTrySendError { err_msg : EngineCommand }.

  (** [UnboundedSender::unbounded_send]. *)
Definition unbounded_send (ch : UnboundedSender) (msg : EngineCommand)
    : UnboundedSender * result unit TrySendError :=
    if closed ch then (ch, Err (mkTrySendError msg))
    else (mkUnboundedSender (closed ch) (queue ch ++ [msg]), Ok tt).

  (** [jsonrpc_core::Error]. *)
Record RpcError := mkRpcError { code : Z; message : string }.

  (** [pub struct ManualSeal]. *)
Record ManualSeal := mkManualSeal { import_block_channel : UnboundedSender }.

  (** [ManualSeal::new]. *)
Definition ManualSeal_new (import_block_channel : UnboundedSender) : ManualSeal :=
  mkManualSeal import_block_channel.

(** [ManualSealApi::create_block] for [ManualSeal]. *)
Definition create_block (self : ManualSeal) (force : bool)
    : ManualSeal * result unit RpcError :=
    let '(ch, _) := unbounded_send (import_block_channel self) (SealNewBlock force) in
    (mkManualSeal ch, Ok tt).

End ManualSealRpc.

(** ** Concrete instances

    Natural numbers for headers, extrinsics, justifications, digests,
    proposers and inherent data; a block is its header and its body; the
    block import records the parameters it is given. *)
Module Examples.

Abbreviation Params := (BlockImportParams nat nat nat nat).

#[global] Instance recording_import : BlockImport nat nat nat nat unit unit (list Params) := {
    Error := string;
    check_block s _ := (s, Ok tt);
    import_block s p _ := (s ++ [p], Ok tt)
  }.

Definition deconstruct (b : nat * list nat) : nat * list nat := b.

  (** Every collaborator succeeds; the proposer built on header [h] is
      [h + 1], the block it proposes has that header and the inherent data
      as its only extrinsic. *)
Definition world (ready : nat)
    : @World nat nat (nat * list nat) nat nat unit unit unit unit :=
    {| pool_ready := ready;
       best_chain := Ok 0;
       env_init := fun h => Ok (S h);
       create_inherent_data := Ok 7;
       propose := fun proposer id _ _ => Ok (proposer, [id]) |}.

  (** The chain selector fails. *)
Definition world_no_best (ready : nat)
    : @World nat nat (nat * list nat) nat nat unit unit unit unit :=
    {| pool_ready := ready;
       best_chain := Err tt;
       env_init := fun h => Ok (S h);
       create_inherent_data := Ok 7;
       propose := fun proposer id _ _ => Ok (proposer, [id]) |}.

  (** The proposer fails. *)
Definition world_propose_fails (ready : nat)
    : @World nat nat (nat * list nat) nat nat unit unit unit unit :=
    {| pool_ready := ready;
       best_chain := Ok 0;
       env_init := fun h => Ok (S h);
       create_inherent_data := Ok 7;
       propose := fun _ _ _ _ => Err tt |}.

  (** The parameters the engine imports for [world]. *)
Definition own_params : Params :=
    {| origin := Own;
       header := 1;
       justification := None;
       post_digests := [];
       body := Some [7];
       finalized := true;
       auxiliary := [];
       fork_choice := LongestChain;
       allow_missing_state := false |}.

End Examples.

(** ** Reading the engine's events *)
Section Observations.
Context {Header Extrinsic Justification DigestItem Proposer InherentData : Type}.

(** The import calls, in the order they were made. *)
Fixpoint imports_of
  (evs : list (@Event Header Extrinsic Justification DigestItem Proposer InherentData))
  : list (BlockImportParams Header Extrinsic Justification DigestItem * HashMap) :=
  match evs with
  | [] => []
  | EvImport p c :: evs' => (p, c) :: imports_of evs'
  | _ :: evs' => imports_of evs'
  end.

End Observations.

(** * Properties *)

Section Pipeline.
Context {Header Extrinsic Justification DigestItem BlockCheckParams ImportResult : Type}.
Context {Block Proposer InherentData : Type}.
Context {ChainError EnvError InherentError ProposeError : Type}.
Context (deconstruct : Block -> Header * list Extrinsic).
Context {I : Type}
    `{BI : BlockImport Header Extrinsic Justification DigestItem BlockCheckParams ImportResult I}.

Local Abbreviation World :=
    (@World Header DigestItem Block Proposer InherentData ChainError EnvError InherentError ProposeError).
Local Abbreviation Event :=
    (@Event Header Extrinsic Justification DigestItem Proposer InherentData).
Local Abbreviation Params := (BlockImportParams Header Extrinsic Justification DigestItem).
Local Abbreviation cycle := (@instant_seal_cycle _ _ _ _ _ _ _ _ _ _ _ _ _ deconstruct I BI).
Local Abbreviation seal := (@seal_block _ _ _ _ _ _ _ _ _ _ _ _ _ deconstruct I BI).
Local Abbreviation loop := (@instant_seal_loop _ _ _ _ _ _ _ _ _ _ _ _ _ deconstruct I BI).

Ltac split_in H :=
    repeat match type of H with
      | In _ (_ :: _) => destruct H as [H|H]
      | In _ [] => destruct H
      | _ \/ _ => destruct H as [H|H]
      | False => destruct H
      end.

Ltac seal_pick :=
    first
      [ left; reflexivity
      | right; left; eexists; split; [first [reflexivity|eassumption]|reflexivity]
      | right; right; left; reflexivity
      | right; right; right; left; do 2 eexists; reflexivity
      | right; right; right; right; left; do 3 eexists; split; [eassumption|];
        match goal with H : deconstruct _ = _ |- _ => rewrite H end; reflexivity
      | right; right; right; right; right; eexists; reflexivity ].

Lemma instant_seal_loop_cons (w : World) (ws : list World) (s : I) :
    loop (w :: ws) s =
      let '(e1, s1, _) := cycle w s in
      let '(e2, s2, b) := loop ws s1 in
      (e1 ++ e2, s2, b).
  Proof.
    simpl. unfold mbind, M_bind.
    destruct (cycle w s) as [[e1 s1] []]. reflexivity.
  Qed.

Lemma instant_seal_loop_events (e : Event) (ws : list World) (s : I) :
    In e (loop ws s).1.1 -> exists w s', In w ws /\ In e (cycle w s').1.1.
  Proof.
    revert s. induction ws as [|w ws IH]; intros s Hin; [simpl in Hin; contradiction|].
    rewrite instant_seal_loop_cons in Hin.
    destruct (cycle w s) as [[e1 s1] u] eqn:Hc.
    destruct (loop ws s1) as [[e2 s2] b] eqn:Hl. simpl in Hin.
    apply in_app_or in Hin as [Hin|Hin].
    - exists w, s. rewrite Hc. simpl. split; [left; reflexivity | exact Hin].
    - destruct (IH s1) as (w' & s' & Hw' & He); [rewrite Hl; exact Hin|].
      exists w', s'. split; [right; exact Hw' | exact He].
  Qed.

Lemma cycle_events_seal (e : Event) (w : World) (s : I) :
    In e (cycle w s).1.1 -> e = EvPoolStatus \/ In e (seal w s).1.1.
  Proof.
    unfold instant_seal_cycle, tell, mbind, M_bind, mret, M_ret.
    destruct (decide (pool_ready w = 0)); simpl.
    - intros [He|[]]. left. symmetry. exact He.
    - destruct (seal w s) as [[e1 s1] u]. simpl. intros [He|He]; [left; symmetry; exact He|right; exact He].
  Qed.

  (** The events [seal_block] can write, by the outcome of each stage. *)
Lemma seal_block_events (e : Event) (w : World) (s : I) :
    In e (seal w s).1.1 ->
    e = EvBestChain \/
    (exists h, best_chain w = Ok h /\ e = EvInit h) \/
    e = EvCreateInherentData \/
    (exists proposer id, e = EvPropose proposer id (Duration_from_secs 5)) \/
    (exists proposer id blk, propose w proposer id [] (Duration_from_secs 5) = Ok blk /\
       e = EvImport {|
             origin := Own;
             header := (deconstruct blk).1;
             justification := None;
             post_digests := [];
             body := Some (deconstruct blk).2;
             finalized := true;
             auxiliary := [];
             fork_choice := LongestChain;
             allow_missing_state := false |} HashMap_new) \/
    (exists msg, e = EvWarn msg).
  Proof.
    unfold seal_block, tell, import_call, mbind, M_bind, mret, M_ret.
    destruct (best_chain w) as [h|err] eqn:Hb; simpl;
      [|intros [He|[]]; left; symmetry; exact He].
    destruct (env_init w h) as [proposer|err] eqn:Hi; simpl;
      [|intros [He|[He|[]]]; [left; symmetry; exact He|right; left; exists h; split; [reflexivity|symmetry; exact He]]].
    destruct (create_inherent_data w) as [id|err] eqn:Hd; simpl;
      [|intros [He|[He|[He|[]]]];
        [left; symmetry; exact He
        |right; left; exists h; split; [reflexivity|symmetry; exact He]
        |right; right; left; symmetry; exact He]].
    destruct (propose w proposer id [] (Duration_from_secs 5)) as [blk|err] eqn:Hp; simpl.
    - destruct (deconstruct blk) as [hd bd] eqn:Hdc. simpl.
      destruct (import_block s _ HashMap_new) as [s' [ok|err']]; simpl;
        intros Hin; split_in Hin; subst; seal_pick.
    - intros Hin; split_in Hin; subst; seal_pick.
  Qed.

Lemma run_instant_seal_events (bi : I) (ws : list World) (e : Event) :
  In e (run_instant_seal deconstruct bi ws).1 ->
  exists w s', In w ws /\ (e = EvPoolStatus \/ In e (seal w s').1.1).
Proof.
  unfold run_instant_seal.
  destruct (loop ws bi) as [[evs s'] r] eqn:Hl. simpl. intros Hin.
  destruct (instant_seal_loop_events e ws bi) as (w & s2 & Hw & He); [rewrite Hl; exact Hin|].
  exists w, s2. split; [exact Hw|]. apply cycle_events_seal. exact He.
Qed.

Lemma instant_seal_loop_zero_ready (ws : list World) (s : I) :
  Forall (fun w => pool_ready w = 0) ws ->
  loop ws s = (map (fun _ => EvPoolStatus) ws, s, ()).
Proof.
  intros Hz. induction Hz as [|w ws Hw Hz IH]; [reflexivity|].
  rewrite instant_seal_loop_cons.
  unfold instant_seal_cycle, tell, mbind, M_bind, mret, M_ret.
  rewrite decide_True by exact Hw. simpl. rewrite IH. reflexivity.
Qed.

(** C1: every block the engine's own pipeline hands to import is imported
    with [origin = Own], [finalized = true], [fork_choice = LongestChain],
    [allow_missing_state = false], no justification, empty post-digests and
    auxiliary data, and an empty cache map; the header and body are those of
    the proposed block.  Stated for the automatic task and for the stages
    after the readiness check, whatever the pool holds. *)
Theorem own_blocks_imported_final :
  (forall (bi : I) (ws : list World) (p : Params) (c : HashMap),
    In (EvImport p c) (run_instant_seal deconstruct bi ws).1 ->
    exists w proposer id blk,
      In w ws /\ propose w proposer id [] (Duration_from_secs 5) = Ok blk /\
      origin p = Own /\ header p = (deconstruct blk).1 /\
      justification p = None /\ post_digests p = [] /\
      body p = Some (deconstruct blk).2 /\ finalized p = true /\
      auxiliary p = [] /\ fork_choice p = LongestChain /\
      allow_missing_state p = false /\ c = ∅) /\
  (forall (w : World) (s : I) (p : Params) (c : HashMap),
    In (EvImport p c) (seal w s).1.1 ->
    exists proposer id blk,
      propose w proposer id [] (Duration_from_secs 5) = Ok blk /\
      origin p = Own /\ header p = (deconstruct blk).1 /\
      justification p = None /\ post_digests p = [] /\
      body p = Some (deconstruct blk).2 /\ finalized p = true /\
      auxiliary p = [] /\ fork_choice p = LongestChain /\
      allow_missing_state p = false /\ c = ∅).
Proof.
  assert (Hseal : forall (w : World) (s : I) (p : Params) (c : HashMap),
    In (EvImport p c) (seal w s).1.1 ->
    exists proposer id blk,
      propose w proposer id [] (Duration_from_secs 5) = Ok blk /\
      origin p = Own /\ header p = (deconstruct blk).1 /\
      justification p = None /\ post_digests p = [] /\
      body p = Some (deconstruct blk).2 /\ finalized p = true /\
      auxiliary p = [] /\ fork_choice p = LongestChain /\
      allow_missing_state p = false /\ c = ∅).
  { intros w s p c Hin.
    apply seal_block_events in Hin
      as [He|[(h & _ & He)|[He|[(? & ? & He)|[(proposer & id & blk & Hp & He)|(? & He)]]]]];
      try discriminate He.
    injection He as -> ->.
    exists proposer, id, blk. repeat split; assumption || reflexivity. }
  split; [|exact Hseal].
  intros bi ws p c Hin.
  apply run_instant_seal_events in Hin as (w & s & Hw & [He|He]); [discriminate He|].
  destruct (Hseal w s p c He) as (proposer & id & blk & Hrest).
  exists w, proposer, id, blk. split; [exact Hw | exact Hrest].
Qed.

(** C2: under the automatic trigger, a notification that finds no ready
    transaction only reads the pool status: no chain-selection query, no
    proposer, no proposal and no import; the import handle is untouched. *)
Theorem zero_ready_no_production (ws : list World) (s : I) :
  Forall (fun w => pool_ready w = 0) ws ->
  loop ws s = (map (fun _ => EvPoolStatus) ws, s, ()) /\
  (forall e, In e (loop ws s).1.1 -> e = EvPoolStatus).
Proof.
  intros Hz. rewrite (instant_seal_loop_zero_ready ws s Hz). split; [reflexivity|].
  simpl. intros e Hin. apply in_map_iff in Hin as (_ & He & _). symmetry. exact He.
Qed.

(** C4: a [SealNewBlock{force: true}] command runs the pipeline past the
    readiness check when no transaction is ready: the best chain is queried
    first, and the proposal is requested whenever the stages before it
    succeed. *)
Theorem force_bypasses_readiness (w : World) (s : I) :
  pool_ready w = 0 ->
  (exists rest, (manual_seal_step deconstruct (SealNewBlock true) w s).1.1 = EvBestChain :: rest) /\
  (forall h proposer id,
    best_chain w = Ok h -> env_init w h = Ok proposer -> create_inherent_data w = Ok id ->
    In (EvPropose proposer id (Duration_from_secs 5))
       (manual_seal_step deconstruct (SealNewBlock true) w s).1.1).
Proof.
  intros _. unfold manual_seal_step, attempt_production.
  unfold seal_block, tell, import_call, mbind, M_bind, mret, M_ret.
  split.
  - destruct (best_chain w) as [h|err]; simpl; [|eexists; reflexivity].
    destruct (env_init w h) as [proposer|err]; simpl; [|eexists; reflexivity].
    destruct (create_inherent_data w) as [id|err]; simpl; [|eexists; reflexivity].
    destruct (propose w proposer id [] (Duration_from_secs 5)) as [blk|err]; simpl;
      [|eexists; reflexivity].
    destruct (deconstruct blk) as [hd bd]. simpl.
    destruct (import_block s _ HashMap_new) as [s' [ok|err]]; simpl; eexists; reflexivity.
  - intros h proposer id Hb Hi Hd. rewrite Hb, Hi, Hd. simpl.
    destruct (propose w proposer id [] (Duration_from_secs 5)) as [blk|err]; simpl;
      [|right; right; right; left; reflexivity].
    destruct (deconstruct blk) as [hd bd]. simpl.
    destruct (import_block s _ HashMap_new) as [s' [ok|err]]; simpl;
      right; right; right; left; reflexivity.
Qed.

(** C5: when a stage before import fails (best chain, proposer
    initialisation, inherent data or the proposal itself), the cycle ends
    with [()] without any import and without touching the import handle,
    and the task goes on with the next notification; the whole task, import
    failures included, resolves to [()]. *)
Theorem stage_failure_aborts_cycle_only (w : World) (ws : list World) (s : I) :
  (forall h, best_chain w = Ok h ->
   forall proposer, env_init w h = Ok proposer ->
   forall id, create_inherent_data w = Ok id ->
   exists err, propose w proposer id [] (Duration_from_secs 5) = Err err) ->
  (exists evs,
    cycle w s = (evs, s, ()) /\
    (forall p c, ~ In (EvImport p c) evs) /\
    loop (w :: ws) s = (evs ++ (loop ws s).1.1, (loop ws s).1.2, ())) /\
  (forall (bi : I) (ns : list World), (run_instant_seal deconstruct bi ns).2 = ()).
Proof.
  intros Hfail. split; [|intros bi ns; destruct (run_instant_seal deconstruct bi ns) as [? []]; reflexivity].
  assert (Hc : exists evs, cycle w s = (evs, s, ()) /\ (forall p c, ~ In (EvImport p c) evs)).
  { unfold instant_seal_cycle, seal_block, tell, import_call, mbind, M_bind, mret, M_ret.
    destruct (decide (pool_ready w = 0)).
    { eexists; split; [reflexivity|]. intros p c Hin. simpl in Hin. split_in Hin; discriminate Hin. }
    destruct (best_chain w) as [h|err] eqn:Hb.
    2:{ eexists; split; [reflexivity|]. intros p c Hin. simpl in Hin. split_in Hin; discriminate Hin. }
    destruct (env_init w h) as [proposer|err] eqn:Hi.
    2:{ eexists; split; [reflexivity|]. intros p c Hin. simpl in Hin. split_in Hin; discriminate Hin. }
    destruct (create_inherent_data w) as [id|err] eqn:Hd.
    2:{ eexists; split; [reflexivity|]. intros p c Hin. simpl in Hin. split_in Hin; discriminate Hin. }
    destruct (Hfail h eq_refl proposer Hi id eq_refl) as [err Hp]. rewrite Hp.
    eexists; split; [reflexivity|]. intros p c Hin. simpl in Hin. split_in Hin; discriminate Hin. }
  destruct Hc as (evs & Hc & Hno). exists evs. split; [exact Hc|]. split; [exact Hno|].
  rewrite instant_seal_loop_cons, Hc.
  destruct (loop ws s) as [[e2 s2] []]. reflexivity.
Qed.

(** C9: every proposal the engine requests has a budget of exactly five
    seconds ([Duration::from_secs(5)]). *)
Theorem proposal_budget_five_seconds :
  (forall (bi : I) (ws : list World) proposer id (d : Duration),
    In (EvPropose proposer id d) (run_instant_seal deconstruct bi ws).1 ->
    d = Duration_from_secs 5 /\ secs d = 5 /\ nanos d = 0) /\
  (forall (w : World) (s : I) proposer id (d : Duration),
    In (EvPropose proposer id d) (seal w s).1.1 ->
    d = Duration_from_secs 5 /\ secs d = 5 /\ nanos d = 0).
Proof.
  assert (Hseal : forall (w : World) (s : I) proposer id (d : Duration),
    In (EvPropose proposer id d) (seal w s).1.1 ->
    d = Duration_from_secs 5 /\ secs d = 5 /\ nanos d = 0).
  { intros w s proposer id d Hin.
    apply seal_block_events in Hin
      as [He|[(h & _ & He)|[He|[(? & ? & He)|[(? & ? & ? & _ & He)|(? & He)]]]]];
      try discriminate He.
    injection He as _ _ ->. repeat split. }
  split; [|exact Hseal].
  intros bi ws proposer id d Hin.
  apply run_instant_seal_events in Hin as (w & s & _ & [He|He]); [discriminate He|].
  exact (Hseal w s proposer id d He).
Qed.

End Pipeline.

(** C3: [InstantSealVerifier::verify] never fails: for any origin, header,
    justification and body it returns [Ok] with no cache entries and a
    directive that carries the inputs through unchanged, is finalized, uses
    the longest-chain rule and has no post-digests and no auxiliary data. *)
Theorem verifier_accepts_and_finalizes
  {Header Extrinsic Justification DigestItem : Type}
  (o : BlockOrigin) (h : Header) (j : option Justification) (b : option (list Extrinsic)) :
  (forall e, @InstantSealVerifier_verify Header Extrinsic Justification DigestItem o h j b <> Err e) /\
  exists params : BlockImportParams Header Extrinsic Justification DigestItem,
    InstantSealVerifier_verify o h j b = Ok (params, None) /\
    origin params = o /\ header params = h /\ justification params = j /\
    body params = b /\ finalized params = true /\ fork_choice params = LongestChain /\
    post_digests params = [] /\ auxiliary params = [] /\ allow_missing_state params = false.
Proof.
  split.
  - intros e He. discriminate He.
  - eexists. split; [reflexivity|]. repeat split.
Qed.

(** C7: [InstantSealBlockImport] forwards [check_block] and [import_block]
    to the inner block import: the same arguments (the import parameters,
    post-digests included, and the cache) go in, the inner result comes out,
    and the error type is the inner one. *)
Theorem shim_delegates_unchanged
  {Header Extrinsic Justification DigestItem BlockCheckParams ImportResult I : Type}
  `{BI : BlockImport Header Extrinsic Justification DigestItem BlockCheckParams ImportResult I} :
  Error (InstantSealBlockImport I) = Error I /\
  (forall (i : I) (block : BlockCheckParams),
    check_block (InstantSealBlockImport_from i) block =
      (InstantSealBlockImport_from (check_block i block).1, (check_block i block).2)) /\
  (forall (i : I) (block : BlockImportParams Header Extrinsic Justification DigestItem)
          (cache : HashMap),
    import_block (InstantSealBlockImport_from i) block cache =
      (InstantSealBlockImport_from (import_block i block cache).1,
       (import_block i block cache).2)).
Proof.
  split; [reflexivity|]. split.
  - intros i block. simpl. destruct (check_block i block). reflexivity.
  - intros i block cache. simpl. destruct (import_block i block cache). reflexivity.
Qed.

Lemma lock_inv_init : ImportLock.lock_inv ImportLock.sched_init.
Proof.
  intros i. simpl. rewrite lookup_nil. split; discriminate.
Qed.

Lemma lock_inv_step (s s' : ImportLock.Sched) :
  ImportLock.lock_inv s -> ImportLock.step s s' -> ImportLock.lock_inv s'.
Proof.
  unfold ImportLock.lock_inv.
  intros Hinv Hstep. destruct Hstep as [l ps|l ps i Hi|l ps i Hi|ps i Hi|l ps i Hi];
    simpl in *; intros j.
  - destruct (decide (j < length ps)) as [Hlt|Hge].
    + rewrite lookup_app_l by exact Hlt. exact (Hinv j).
    + rewrite lookup_app_r by lia. split.
      * intros Hj. destruct (decide (j - length ps = 0)) as [E|E].
        { rewrite E in Hj. discriminate Hj. }
        rewrite lookup_cons_ne_0 in Hj by exact E. rewrite lookup_nil in Hj. discriminate Hj.
      * intros Hl. apply Hinv in Hl. apply lookup_lt_Some in Hl. lia.
  - destruct (decide (i = j)) as [<-|Hne].
    + rewrite list_lookup_insert_eq by (apply lookup_lt_Some in Hi; exact Hi). split.
      * discriminate.
      * intros Hl. apply Hinv in Hl. congruence.
    + rewrite list_lookup_insert_ne by exact Hne. exact (Hinv j).
  - destruct (decide (i = j)) as [<-|Hne].
    + rewrite list_lookup_insert_eq by (apply lookup_lt_Some in Hi; exact Hi). split.
      * discriminate.
      * intros Hl. apply Hinv in Hl. congruence.
    + rewrite list_lookup_insert_ne by exact Hne. exact (Hinv j).
  - destruct (decide (i = j)) as [<-|Hne].
    + rewrite list_lookup_insert_eq by (apply lookup_lt_Some in Hi; exact Hi). tauto.
    + rewrite list_lookup_insert_ne by exact Hne. split.
      * intros Hj. apply Hinv in Hj. discriminate Hj.
      * intros Hl. congruence.
  - assert (Hl : l = Some i) by (apply Hinv; exact Hi). subst l.
    destruct (decide (i = j)) as [<-|Hne].
    + rewrite list_lookup_insert_eq by (apply lookup_lt_Some in Hi; exact Hi). split; discriminate.
    + rewrite list_lookup_insert_ne by exact Hne. split.
      * intros Hj. apply Hinv in Hj. congruence.
      * discriminate.
Qed.

Lemma lock_inv_reachable (s : ImportLock.Sched) :
  ImportLock.reachable s -> ImportLock.lock_inv s.
Proof.
  unfold ImportLock.reachable. intros Hr.
  assert (Hgen : forall s0, rtc ImportLock.step s0 s -> ImportLock.lock_inv s0 -> ImportLock.lock_inv s).
  { clear Hr. intros s0 H. induction H as [x|x y z Hxy Hyz IH]; intros Hx; [exact Hx|].
    apply IH. exact (lock_inv_step x y Hx Hxy). }
  exact (Hgen _ Hr lock_inv_init).
Qed.

(** C6: however many cycles run side by side, in every reachable schedule at
    most one of them is inside [import_block], and it is the one holding the
    import-handle mutex: import calls never overlap. *)
Theorem imports_mutually_exclusive (s : ImportLock.Sched) :
  ImportLock.reachable s ->
  (forall i j, ImportLock.phases s !! i = Some ImportLock.Importing ->
               ImportLock.phases s !! j = Some ImportLock.Importing -> i = j) /\
  (forall i, ImportLock.phases s !! i = Some ImportLock.Importing ->
             ImportLock.lock_holder s = Some i).
Proof.
  intros Hr. pose proof (lock_inv_reachable s Hr) as Hinv. split.
  - intros i j Hi Hj. apply Hinv in Hi, Hj. congruence.
  - intros i Hi. apply Hinv. exact Hi.
Qed.

(** C10 (as stated): a call of [engine_createBlock] does not always enqueue
    a command: once the receiving engine is gone the send fails and the
    queue is left as it was. *)
Lemma create_block_closed_enqueues_nothing :
  ~ (forall (self : ManualSealRpc.ManualSeal) (force : bool),
       ManualSealRpc.queue (ManualSealRpc.import_block_channel
                              (ManualSealRpc.create_block self force).1) =
         ManualSealRpc.queue (ManualSealRpc.import_block_channel self) ++ [SealNewBlock force] /\
       (ManualSealRpc.create_block self force).2 = Ok tt).
Proof.
  intros Hall.
  destruct (Hall (ManualSealRpc.mkManualSeal (ManualSealRpc.mkUnboundedSender true [])) true)
    as [Hq _].
  discriminate Hq.
Qed.

(** C10 (amended): [engine_createBlock(force)] makes exactly one send of
    [SealNewBlock{force}]: it is queued when the channel is open, and
    dropped (the send error is discarded) when the channel is closed; in
    every case the call returns [Ok(())], so nothing about block production
    is reported back. *)
Theorem create_block_send_outcome (self : ManualSealRpc.ManualSeal) (force : bool) :
  (ManualSealRpc.create_block self force).2 = Ok tt /\
  ManualSealRpc.closed (ManualSealRpc.import_block_channel (ManualSealRpc.create_block self force).1) =
    ManualSealRpc.closed (ManualSealRpc.import_block_channel self) /\
  ManualSealRpc.queue (ManualSealRpc.import_block_channel (ManualSealRpc.create_block self force).1) =
    (if ManualSealRpc.closed (ManualSealRpc.import_block_channel self)
     then ManualSealRpc.queue (ManualSealRpc.import_block_channel self)
     else ManualSealRpc.queue (ManualSealRpc.import_block_channel self) ++ [SealNewBlock force]).
Proof.
  destruct self as [[cl q]]. unfold ManualSealRpc.create_block, ManualSealRpc.unbounded_send.
  destruct cl; simpl; repeat split.
Qed.

(** * Witnesses *)

Lemma own_blocks_imported_final_witness :
  In (EvImport Examples.own_params ∅)
     (run_instant_seal Examples.deconstruct [] [Examples.world 1]).1 /\
  finalized Examples.own_params = true /\ fork_choice Examples.own_params = LongestChain.
Proof.
  assert (H : In (EvImport Examples.own_params ∅)
                 (run_instant_seal Examples.deconstruct [] [Examples.world 1]).1)
    by (vm_compute; tauto).
  split; [exact H|].
  destruct (proj1 (own_blocks_imported_final (I:=list Examples.Params) Examples.deconstruct)
                  [] [Examples.world 1] _ _ H)
    as (w & proposer & id & blk & _ & _ & _ & _ & _ & _ & _ & Hf & _ & Hfc & _).
  split; assumption.
Defined.

Lemma zero_ready_no_production_witness :
  Forall (fun w => pool_ready w = 0) [Examples.world 0; Examples.world_no_best 0] /\
  instant_seal_loop Examples.deconstruct [Examples.world 0; Examples.world_no_best 0] [] =
    ([EvPoolStatus; EvPoolStatus], [], ()).
Proof.
  assert (H : Forall (fun w => pool_ready w = 0) [Examples.world 0; Examples.world_no_best 0])
    by (repeat constructor).
  split; [exact H|].
  exact (proj1 (zero_ready_no_production (I:=list Examples.Params) Examples.deconstruct _ [] H)).
Defined.

Lemma force_bypasses_readiness_witness :
  pool_ready (Examples.world 0) = 0 /\
  In (EvPropose 1 7 (Duration_from_secs 5))
     (manual_seal_step Examples.deconstruct (SealNewBlock true) (Examples.world 0) []).1.1.
Proof.
  assert (H : pool_ready (Examples.world 0) = 0) by reflexivity.
  split; [exact H|].
  exact (proj2 (force_bypasses_readiness (I:=list Examples.Params) Examples.deconstruct
                  (Examples.world 0) [] H) 0 1 7 eq_refl eq_refl eq_refl).
Defined.

Lemma stage_failure_aborts_cycle_only_witness :
  instant_seal_loop Examples.deconstruct [Examples.world_no_best 1; Examples.world 1] [] =
    ([EvPoolStatus; EvBestChain] ++
       (instant_seal_loop Examples.deconstruct [Examples.world 1] []).1.1,
     (instant_seal_loop Examples.deconstruct [Examples.world 1] []).1.2, ()).
Proof.
  assert (Hf : forall h, best_chain (Examples.world_no_best 1) = Ok h ->
     forall proposer, env_init (Examples.world_no_best 1) h = Ok proposer ->
     forall id, create_inherent_data (Examples.world_no_best 1) = Ok id ->
     exists err, propose (Examples.world_no_best 1) proposer id [] (Duration_from_secs 5) = Err err)
    by (intros h Hb; discriminate Hb).
  destruct (proj1 (stage_failure_aborts_cycle_only (I:=list Examples.Params) Examples.deconstruct
                     (Examples.world_no_best 1) [Examples.world 1] [] Hf))
    as (evs & Hc & _ & Hl).
  rewrite Hl. vm_compute in Hc. injection Hc as <-. reflexivity.
Defined.

Lemma proposal_budget_five_seconds_witness :
  In (EvPropose 1 7 (Duration_from_secs 5))
     (run_instant_seal Examples.deconstruct [] [Examples.world 1]).1 /\
  secs (Duration_from_secs 5) = 5.
Proof.
  assert (H : In (EvPropose 1 7 (Duration_from_secs 5))
                 (run_instant_seal Examples.deconstruct [] [Examples.world 1]).1)
    by (vm_compute; tauto).
  split; [exact H|].
  exact (proj1 (proj2 (proj1 (proposal_budget_five_seconds (I:=list Examples.Params)
                                 Examples.deconstruct) [] _ _ _ _ H))).
Defined.

Lemma imports_mutually_exclusive_witness :
  ImportLock.reachable (ImportLock.mkSched (Some 0) [ImportLock.Importing; ImportLock.Locking]) /\
  ImportLock.lock_holder (ImportLock.mkSched (Some 0) [ImportLock.Importing; ImportLock.Locking]) = Some 0.
Proof.
  assert (H : ImportLock.reachable
                (ImportLock.mkSched (Some 0) [ImportLock.Importing; ImportLock.Locking])).
  { unfold ImportLock.reachable, ImportLock.sched_init.
    eapply rtc_l; [apply (ImportLock.step_spawn None [])|]. simpl.
    eapply rtc_l; [apply (ImportLock.step_spawn None [ImportLock.Proposing])|]. simpl.
    eapply rtc_l; [apply (ImportLock.step_proposed None _ 0); reflexivity|]. simpl.
    eapply rtc_l; [apply (ImportLock.step_proposed None _ 1); reflexivity|]. simpl.
    eapply rtc_l; [apply (ImportLock.step_lock _ 0); reflexivity|]. simpl.
    apply rtc_refl. }
  split; [exact H|].
  exact (proj2 (imports_mutually_exclusive _ H) 0 eq_refl).
Defined.

(** * Further properties of [run_instant_seal] *)

Section PipelineMore.
Context {Header Extrinsic Justification DigestItem BlockCheckParams ImportResult : Type}.
Context {Block Proposer InherentData : Type}.
Context {ChainError EnvError InherentError ProposeError : Type}.
Context (deconstruct : Block -> Header * list Extrinsic).
Context {I : Type}
  `{BI : BlockImport Header Extrinsic Justification DigestItem BlockCheckParams ImportResult I}.

Local Abbreviation World :=
  (@World Header DigestItem Block Proposer InherentData ChainError EnvError InherentError ProposeError).
Local Abbreviation Params := (BlockImportParams Header Extrinsic Justification DigestItem).
Local Abbreviation cycle := (@instant_seal_cycle _ _ _ _ _ _ _ _ _ _ _ _ _ deconstruct I BI).
Local Abbreviation loop := (@instant_seal_loop _ _ _ _ _ _ _ _ _ _ _ _ _ deconstruct I BI).

Ltac cycle_cases :=
  unfold instant_seal_cycle, seal_block, tell, import_call, mbind, M_bind, mret, M_ret;
  repeat (simpl; match goal with
    | |- context [decide ?P] => destruct (decide P)
    | |- context [match ?x with Ok _ => _ | Err _ => _ end] => destruct x eqn:?
    | |- context [deconstruct ?b] => destruct (deconstruct b) eqn:?
    | |- context [import_block ?s ?p ?c] => destruct (import_block s p c) eqn:?
    end); simpl.

Lemma imports_of_app (e1 e2 : list (@Event Header Extrinsic Justification DigestItem Proposer InherentData)) :
  imports_of (e1 ++ e2) = imports_of e1 ++ imports_of e2.
Proof.
  induction e1 as [|e e1 IH]; [reflexivity|]. destruct e; simpl; rewrite ?IH; reflexivity.
Qed.

Lemma cycle_state_follows_imports (w : World) (s : I) :
  (cycle w s).1.2 =
    fold_left (fun s pc => (import_block s pc.1 pc.2).1) (imports_of (cycle w s).1.1) s.
Proof. cycle_cases; try reflexivity; simpl in *; congruence. Qed.

Lemma cycle_imports_at_most_one (w : World) (s : I) :
  length (imports_of (cycle w s).1.1) <= 1.
Proof. cycle_cases; lia. Qed.

Ltac split_in H :=
  repeat match type of H with
    | In _ (_ :: _) => destruct H as [H|H]
    | In _ [] => destruct H
    | _ \/ _ => destruct H as [H|H]
    | False => destruct H
    end.

(** X1: the block-import handle changes only through the engine's import
    calls: its final state is the inner [import_block] applied, in order, to
    the parameters and caches the task imported. *)
Theorem handle_state_follows_imports (ws : list World) (s : I) :
  (loop ws s).1.2 =
    fold_left (fun s pc => (import_block s pc.1 pc.2).1) (imports_of (loop ws s).1.1) s.
Proof.
  revert s. induction ws as [|w ws IH]; intros s; [reflexivity|].
  rewrite instant_seal_loop_cons.
  destruct (cycle w s) as [[e1 s1] u] eqn:Hc.
  destruct (loop ws s1) as [[e2 s2] b] eqn:Hl. simpl.
  rewrite imports_of_app, fold_left_app.
  pose proof (cycle_state_follows_imports w s) as Hs. rewrite Hc in Hs. simpl in Hs.
  pose proof (IH s1) as H2. rewrite Hl in H2. simpl in H2.
  rewrite <- Hs. exact H2.
Qed.

(** X2: the task imports at most one block per pool notification. *)
Theorem imports_at_most_one_per_notification (ws : list World) (s : I) :
  length (imports_of (loop ws s).1.1) <= length ws.
Proof.
  revert s. induction ws as [|w ws IH]; intros s; [simpl; lia|].
  rewrite instant_seal_loop_cons.
  destruct (cycle w s) as [[e1 s1] u] eqn:Hc.
  destruct (loop ws s1) as [[e2 s2] b] eqn:Hl. simpl.
  rewrite imports_of_app, length_app.
  pose proof (cycle_imports_at_most_one w s) as H1. rewrite Hc in H1. simpl in H1.
  pose proof (IH s1) as H2. rewrite Hl in H2. simpl in H2. lia.
Qed.

(** X3: a notification leads to an import exactly when some transaction is
    ready and the chain selector, the proposer environment, the inherent
    data providers and the proposer all succeed. *)
Theorem cycle_imports_iff (w : World) (s : I) :
  (exists p c, In (EvImport p c) (cycle w s).1.1) <->
  pool_ready w <> 0 /\
  (exists h proposer id blk,
     best_chain w = Ok h /\ env_init w h = Ok proposer /\
     create_inherent_data w = Ok id /\
     propose w proposer id [] (Duration_from_secs 5) = Ok blk).
Proof.
  cycle_cases; split;
    try (intros (p & c & Hin); split_in Hin; discriminate Hin);
    try (intros [Hr (h & proposer & id & blk & Hb & Hi & Hd & Hp)]; congruence).
  all: try (intros _; do 2 eexists; repeat (first [left; reflexivity | right])).
  all: intros _; split; [assumption|]; do 4 eexists; repeat split; eassumption.
Qed.

(** X4: a cycle writes a warning only once the proposer was asked for a
    block: failures of the chain selector, of the proposer environment and
    of the inherent data providers end the cycle without any log, and the
    only messages are the proposal and import failures. *)
Theorem warnings_only_after_proposal (w : World) (s : I) (msg : string) :
  In (EvWarn msg) (cycle w s).1.1 ->
  pool_ready w <> 0 /\
  (exists h proposer id,
     best_chain w = Ok h /\ env_init w h = Ok proposer /\ create_inherent_data w = Ok id) /\
  (msg = "Failed to propose block" \/ msg = "Failed to import just-constructed block").
Proof.
  cycle_cases; intros Hin; split_in Hin; try discriminate Hin;
    injection Hin as <-; (split; [assumption|]);
    (split; [do 3 eexists; repeat split; eassumption|]); tauto.
Qed.

(** X5: proposal failures and import failures are both reported by a
    warning. *)
Theorem proposal_and_import_failures_warned (w : World) (s : I) h proposer id :
  pool_ready w <> 0 ->
  best_chain w = Ok h -> env_init w h = Ok proposer -> create_inherent_data w = Ok id ->
  (forall err, propose w proposer id [] (Duration_from_secs 5) = Err err ->
     In (EvWarn "Failed to propose block") (cycle w s).1.1) /\
  (forall blk err,
     propose w proposer id [] (Duration_from_secs 5) = Ok blk ->
     (import_block s {|
         origin := Own;
         header := (deconstruct blk).1;
         justification := None;
         post_digests := [];
         body := Some (deconstruct blk).2;
         finalized := true;
         auxiliary := [];
         fork_choice := LongestChain;
         allow_missing_state := false |} HashMap_new).2 = Err err ->
     In (EvWarn "Failed to import just-constructed block") (cycle w s).1.1).
Proof.
  intros Hr Hb Hi Hd. split.
  - intros err Hp. cycle_cases; congruence || tauto.
  - intros blk err Hp Himp.
    unfold instant_seal_cycle, seal_block, tell, import_call, mbind, M_bind, mret, M_ret.
    rewrite decide_False by exact Hr. rewrite Hb, Hi, Hd, Hp. simpl.
    set (db := deconstruct blk) in *. destruct db as [hd bd]. simpl in *.
    destruct (import_block s _ HashMap_new) as [s' r] eqn:E.
    simpl in Himp. subst r. simpl. tauto.
Qed.

(** X6: the proposer is the one the environment initialised on the best
    header just returned by the chain selector, and it is given the inherent
    data just created, after a non-empty pool was seen. *)
Theorem proposal_built_on_best_header (w : World) (s : I) proposer id (d : Duration) :
  In (EvPropose proposer id d) (cycle w s).1.1 ->
  pool_ready w <> 0 /\
  exists h, best_chain w = Ok h /\ env_init w h = Ok proposer /\ create_inherent_data w = Ok id.
Proof.
  cycle_cases; intros Hin; split_in Hin; try discriminate Hin;
    injection Hin as <- <- <-; (split; [assumption|]); eexists; repeat split; eassumption.
Qed.

Lemma shim_cycle_same_events (w : World) (i : I) :
  @instant_seal_cycle _ _ _ _ _ _ _ _ _ _ _ _ _ deconstruct (InstantSealBlockImport I) _
    w (InstantSealBlockImport_from i) =
  let '(evs, i', u) := cycle w i in (evs, InstantSealBlockImport_from i', u).
Proof. cycle_cases; reflexivity. Qed.

(** X7: running the task on [InstantSealBlockImport::from(inner)] is
    running it on [inner]: the same events, the same imports, and the final
    wrapper holds the inner handle's final state. *)
Theorem shim_run_same_events (ws : list World) (i : I) :
  @instant_seal_loop _ _ _ _ _ _ _ _ _ _ _ _ _ deconstruct (InstantSealBlockImport I) _
    ws (InstantSealBlockImport_from i) =
  let '(evs, i', u) := loop ws i in (evs, InstantSealBlockImport_from i', u).
Proof.
  revert i. induction ws as [|w ws IH]; intros i; [reflexivity|].
  rewrite !instant_seal_loop_cons, shim_cycle_same_events.
  destruct (cycle w i) as [[e1 i1] u].
  rewrite IH. destruct (loop ws i1) as [[e2 i2] b]. reflexivity.
Qed.

End PipelineMore.

(** X8: successive [engine_createBlock] calls queue their commands in call
    order while the channel is open, and leave the queue as it is once it is
    closed; every call answers [Ok(())]. *)
Theorem create_block_calls_queue_in_order (ch : ManualSealRpc.UnboundedSender) (forces : list bool) :
  let self := fold_left (fun self f => (ManualSealRpc.create_block self f).1) forces
                (ManualSealRpc.ManualSeal_new ch) in
  ManualSealRpc.closed (ManualSealRpc.import_block_channel self) = ManualSealRpc.closed ch /\
  ManualSealRpc.queue (ManualSealRpc.import_block_channel self) =
    (if ManualSealRpc.closed ch then ManualSealRpc.queue ch
     else ManualSealRpc.queue ch ++ map SealNewBlock forces) /\
  Forall (fun f => forall self', (ManualSealRpc.create_block self' f).2 = Ok tt) forces.
Proof.
  simpl. revert ch. induction forces as [|f forces IH]; intros [cl q].
  - simpl. destruct cl; rewrite ?app_nil_r; repeat split; constructor.
  - simpl. destruct cl.
    + destruct (IH (ManualSealRpc.mkUnboundedSender true q)) as (H1 & H2 & H3).
      split; [exact H1|]. split; [exact H2|]. constructor; [intros [[c0 q0]]; unfold ManualSealRpc.create_block, ManualSealRpc.unbounded_send; destruct c0; reflexivity|exact H3].
    + destruct (IH (ManualSealRpc.mkUnboundedSender false (q ++ [SealNewBlock f]))) as (H1 & H2 & H3).
      split; [exact H1|]. split.
      * etransitivity; [exact H2|]. simpl. rewrite <- app_assoc. reflexivity.
      * constructor; [intros [[c0 q0]]; unfold ManualSealRpc.create_block, ManualSealRpc.unbounded_send; destruct c0; reflexivity|exact H3].
Qed.

Lemma warnings_only_after_proposal_witness :
  In (EvWarn "Failed to propose block")
     (instant_seal_cycle Examples.deconstruct (Examples.world_propose_fails 1) []).1.1 /\
  create_inherent_data (Examples.world_propose_fails 1) = Ok 7.
Proof.
  assert (H : In (EvWarn "Failed to propose block")
     (instant_seal_cycle Examples.deconstruct (Examples.world_propose_fails 1) []).1.1)
    by (vm_compute; tauto).
  split; [exact H|].
  destruct (warnings_only_after_proposal (I:=list Examples.Params) Examples.deconstruct
              (Examples.world_propose_fails 1) [] _ H) as (_ & (h & proposer & id & Hb & Hi & Hd) & _).
  simpl in Hd. injection Hd as <-. reflexivity.
Defined.

Lemma proposal_and_import_failures_warned_witness :
  In (EvWarn "Failed to propose block")
     (instant_seal_cycle Examples.deconstruct (Examples.world_propose_fails 1) []).1.1.
Proof.
  exact (proj1 (proposal_and_import_failures_warned (I:=list Examples.Params) Examples.deconstruct
                  (Examples.world_propose_fails 1) [] 0 1 7
                  ltac:(discriminate) eq_refl eq_refl eq_refl) tt eq_refl).
Defined.

Lemma proposal_built_on_best_header_witness :
  In (EvPropose 1 7 (Duration_from_secs 5))
     (instant_seal_cycle Examples.deconstruct (Examples.world 1) []).1.1 /\
  env_init (Examples.world 1) 0 = Ok 1.
Proof.
  assert (H : In (EvPropose 1 7 (Duration_from_secs 5))
     (instant_seal_cycle Examples.deconstruct (Examples.world 1) []).1.1)
    by (vm_compute; tauto).
  split; [exact H|].
  destruct (proposal_built_on_best_header (I:=list Examples.Params) Examples.deconstruct
              (Examples.world 1) [] _ _ _ H) as (_ & h & Hb & Hi & _).
  simpl in Hb. injection Hb as <-. exact Hi.
Defined.
